(** * app.py: a question-answering HTTP service over a chat-completion API

    A shallow embedding of [src/app.py].  The module has three functions
    ([openai_chat_completion], [root], [qa]) and one start-up assignment
    ([openai.api_key = os.getenv("OPENAI_API_KEY")]).

    Python dictionaries with string keys are finite maps ([gmap string
    string]); the call to the external completion service is an effect on
    an explicit world (the module's globals and the log of outbound calls);
    Python exceptions are the left summand of the result. *)

From stdpp Require Import gmap strings list.

Open Scope string_scope.
Open Scope list_scope.

(** ** Values *)

(** A Python [dict] whose keys and values are strings. *)
Abbreviation dict := (gmap string string).

(** What [openai.ChatCompletion.create] can raise on its own. *)
Inductive ServiceFailure : Type :=
  | NetworkError
  | AuthenticationError
  | RateLimitError
  | MalformedResponse.

(** The exceptions that can travel through the functions of the module:
    a failure of the service, [choices[0]] on an empty list, and
    [message["content"]] on a message without that key. *)
Inductive exn : Type :=
  | APIError (f : ServiceFailure)
  | IndexError
  | KeyError (key : string).

(** The part of a completion response that the module reads:
    [completion.choices[i].message[k]]. *)
Record Choice : Type := { message : dict }.
Record Completion : Type := { choices : list Choice }.

(** One outbound call: the keyword arguments of
    [openai.ChatCompletion.create] together with the credential the client
    library reads from [openai.api_key] when the call is made. *)
Record CompletionRequest : Type := {
  req_api_key : option string;
  req_model : string;
  req_messages : list dict
}.

(** ** The world *)

(** Module-level state: the process environment and [openai.api_key]. *)
Record Globals : Type := {
  environ : dict;
  api_key : option string
}.

(** The world a handler runs in: the module's globals and the calls sent
    to the external service so far, oldest first. *)
Record World : Type := {
  globals : Globals;
  outbound : list CompletionRequest
}.

Definition set_api_key (k : option string) (g : Globals) : Globals :=
  {| environ := environ g; api_key := k |}.

Definition set_environ (e : dict) (g : Globals) : Globals :=
  {| environ := e; api_key := api_key g |}.

Definition log_call (c : CompletionRequest) (w : World) : World :=
  {| globals := globals w; outbound := outbound w ++ [c] |}.

(** ** Computations: state and exceptions *)

(** A computation takes the world and gives a result or an exception,
    and the world it leaves behind.  An exception does not undo effects. *)
Definition M (A : Type) : Type := World -> (exn + A) * World.

Definition ret {A : Type} (a : A) : M A := fun w => (inr a, w).

Definition raise {A : Type} (e : exn) : M A := fun w => (inl e, w).

Definition bind {A B : Type} (m : M A) (k : A -> M B) : M B :=
  fun w =>
    match m w with
    | (inl e, w') => (inl e, w')
    | (inr a, w') => k a w'
    end.

Declare Scope py_scope.
Delimit Scope py_scope with py.
Notation "x <~ m ;;; k" := (bind m (fun x => k))
  (at level 100, m at next level, right associativity) : py_scope.
Open Scope py_scope.

(** [l[i]]: [IndexError] out of range. *)
Definition getitem_list {A : Type} (l : list A) (i : nat) : M A :=
  match l !! i with
  | Some x => ret x
  | None => raise IndexError
  end.

(** [d[k]]: [KeyError] when the key is absent. *)
Definition getitem_dict (d : dict) (k : string) : M string :=
  match d !! k with
  | Some v => ret v
  | None => raise (KeyError k)
  end.

(** ** The module *)

Definition default_model : string := "gpt-3.5-turbo".
Definition persona : string := "You are a funny assistant.".

Section App.

(** The external completion service: what it answers to a call, given
    the calls it has received before.  It is outside the program; every
    statement below holds for every such service. *)
Variable service :
  list CompletionRequest -> CompletionRequest -> exn + Completion.

(** [openai.ChatCompletion.create(model=..., messages=...)]: one call
    goes out, carrying the credential in [openai.api_key]; the service's
    answer or failure comes back. *)
Definition ChatCompletion_create
    (model : string) (messages : list dict) : M Completion :=
  fun w =>
    let call := {| req_api_key := api_key (globals w);
                   req_model := model;
                   req_messages := messages |} in
    (service (outbound w) call, log_call call w).

(** [def openai_chat_completion(question, model="gpt-3.5-turbo")].
    [model] is [None] when the caller leaves the argument out. *)
Definition openai_chat_completion
    (question : string) (model : option string) : M string :=
  completion <~ ChatCompletion_create (default default_model model)
      [ {[ "role" := "system"; "content" := persona ]};
        {[ "role" := "user"; "content" := question ]} ] ;;;
  choice <~ getitem_list (choices completion) 0 ;;;
  getitem_dict (message choice) "content".

(** [def root()]. *)
Definition root : M dict := ret {[ "Hello" := "World" ]}.

(** The body of [qa], with the function bound to the global name
    [openai_chat_completion] taken as an argument: Python looks the name
    up when [qa] runs, so a test can put a stub in its place. *)
Definition qa_via (completion_fn : string -> M string)
    (question : string) : M dict :=
  answer <~ completion_fn question ;;;
  ret {[ "question" := question; "answer" := answer ]}.

(** [def qa(question: str)], as the module defines it. *)
Definition qa (question : string) : M dict :=
  qa_via (fun q => openai_chat_completion q None) question.

(** Module start-up: [load_dotenv()] then
    [openai.api_key = os.getenv("OPENAI_API_KEY")].  [load_dotenv] is the
    dotenv library's: it is taken as the change it makes to the process
    environment.  [os.getenv] gives [None] for an unset variable. *)
Variable load_dotenv : dict -> dict.

Definition module_init (w : World) : World :=
  let w1 :=
    {| globals := set_environ (load_dotenv (environ (globals w))) (globals w);
       outbound := outbound w |} in
  {| globals :=
       set_api_key (environ (globals w1) !! "OPENAI_API_KEY") (globals w1);
     outbound := outbound w1 |}.

End App.

(** ** The HTTP boundary *)

(** The answer to one HTTP request.  [body] is the JSON object a handler
    returned; it is [None] when no handler result is sent. *)
Record HttpResponse : Type := {
  status : nat;
  body : option dict
}.

(** The status codes of the framework's own error answers.  The
    specification fixes their classes only. *)
Record ErrorStatuses : Type := {
  client_error : nat;
  client_error_4xx : 400 <= client_error <= 499;
  server_error : nat;
  server_error_5xx : 500 <= server_error <= 599
}.

Section Boundary.

Variable service :
  list CompletionRequest -> CompletionRequest -> exn + Completion.
Variable codes : ErrorStatuses.

(** Modelled from the spec: the web framework behind [@app.get], which
    is not part of the module.  A handler's returned object is sent with
    status 200; an exception that leaves a handler surfaces as a 5xx
    answer without a handler body. *)
Definition respond (r : (exn + dict) * World) : HttpResponse * World :=
  match r with
  | (inr obj, w') => ({| status := 200; body := Some obj |}, w')
  | (inl _, w') => ({| status := server_error codes; body := None |}, w')
  end.

(** Modelled from the spec: [@app.get("/")] over [root], which takes no
    parameter; whatever the query string holds is not passed on. *)
Definition get_root (query : dict) : World -> HttpResponse * World :=
  fun w => respond (root w).

(** Modelled from the spec: [@app.get("/qa")] over [qa(question: str)].
    The binding layer requires the query parameter [question]; when it
    is absent the answer is a 4xx with no further processing, otherwise
    [qa] runs on its value. *)
Definition get_qa (query : dict) : World -> HttpResponse * World :=
  fun w =>
    match query !! "question" with
    | None => ({| status := client_error codes; body := None |}, w)
    | Some question => respond (qa service question w)
    end.

End Boundary.

(** ** Test doubles *)

(** The framework's default codes: 422 for a request that fails
    validation, 500 for an unhandled exception. *)
Definition default_codes : ErrorStatuses :=
  {| client_error := 422;
     client_error_4xx := ltac:(lia);
     server_error := 500;
     server_error_5xx := ltac:(lia) |}.

(** A service that answers with one choice carrying [text]. *)
Definition canned_service (text : string)
    : list CompletionRequest -> CompletionRequest -> exn + Completion :=
  fun _ _ => inr {| choices := [ {| message := {[ "role" := "assistant";
                                                  "content" := text ]} |} ] |}.

(** A service that answers with the content of the last message it got. *)
Definition echo_service
    : list CompletionRequest -> CompletionRequest -> exn + Completion :=
  fun _ call =>
    match last (req_messages call) ≫= (.!! "content") with
    | Some text => canned_service text [] call
    | None => inl (APIError MalformedResponse)
    end.

(** A service that refuses every call. *)
Definition failing_service (f : ServiceFailure)
    : list CompletionRequest -> CompletionRequest -> exn + Completion :=
  fun _ _ => inl (APIError f).

(** A service whose answer has no choice at all. *)
Definition choiceless_service
    : list CompletionRequest -> CompletionRequest -> exn + Completion :=
  fun _ _ => inr {| choices := [] |}.

(** A world just after start-up with the credential [key]. *)
Definition fresh_world (key : string) : World :=
  {| globals := {| environ := {[ "OPENAI_API_KEY" := key ]};
                   api_key := Some key |};
     outbound := [] |}.

(** A completion function that involves no service: a pure function of
    the question. *)
Definition stub (f : string -> string) : string -> M string :=
  fun q => ret (f q).

(** ** Vocabulary of the statements *)

(** The call [openai_chat_completion question model] sends from [w]. *)
Definition completion_call
    (w : World) (question : string) (model : option string)
    : CompletionRequest :=
  {| req_api_key := api_key (globals w);
     req_model := default default_model model;
     req_messages :=
       [ {[ "role" := "system"; "content" := persona ]};
         {[ "role" := "user"; "content" := question ]} ] |}.

(** [completion.choices[0].message["content"]], with its two ways to fail. *)
Definition first_choice_content (c : Completion) : exn + string :=
  match choices c with
  | [] => inl IndexError
  | choice :: _ =>
      match message choice !! "content" with
      | Some text => inr text
      | None => inl (KeyError "content")
      end
  end.

(** The JSON object [qa] builds from a question and an answer. *)
Definition qa_result (question answer : string) : dict :=
  {[ "question" := question; "answer" := answer ]}.

(** Questions handled one after the other by [qa], whatever each one's
    outcome. *)
Definition serve
    (service : list CompletionRequest -> CompletionRequest -> exn + Completion)
    (questions : list string) (w : World) : World :=
  foldl (fun w q => snd (qa service q w)) w questions.

(** * Properties *)

Example sky_blue :
  fst (qa (canned_service "Because of Rayleigh scattering, duh.")
          "Why is the sky blue?" (fresh_world "sk-test"))
  = inr {[ "question" := "Why is the sky blue?";
           "answer" := "Because of Rayleigh scattering, duh." ]}.
Proof. vm_compute. reflexivity. Qed.

Example echo_run :
  qa echo_service "ping" (fresh_world "sk-test")
  = (inr {[ "question" := "ping"; "answer" := "ping" ]},
     {| globals := globals (fresh_world "sk-test");
        outbound := [ {| req_api_key := Some "sk-test";
                         req_model := "gpt-3.5-turbo";
                         req_messages :=
                           [ {[ "role" := "system";
                                "content" := "You are a funny assistant." ]};
                             {[ "role" := "user"; "content" := "ping" ]} ] |} ] |}).
Proof. vm_compute. reflexivity. Qed.

Example empty_question_echo :
  get_qa echo_service default_codes {[ "question" := "" ]}
    (fresh_world "sk-test")
  = ({| status := 200;
        body := Some {[ "question" := ""; "answer" := "" ]} |},
     log_call (completion_call (fresh_world "sk-test") "" None)
       (fresh_world "sk-test")).
Proof. vm_compute. reflexivity. Qed.

Example no_choice_is_an_index_error :
  fst (qa choiceless_service "ping" (fresh_world "sk-test")) = inl IndexError.
Proof. reflexivity. Qed.

Example other_model_on_request :
  map req_model
    (outbound (snd (openai_chat_completion echo_service "ping" (Some "gpt-4")
                      (fresh_world "sk-test"))))
  = ["gpt-4"].
Proof. reflexivity. Qed.

Section Properties.

Variable service :
  list CompletionRequest -> CompletionRequest -> exn + Completion.
Variable codes : ErrorStatuses.

(** *** Equations of the handlers *)

Lemma bind_run {A B : Type} (m : M A) (k : A -> M B) (w : World) :
  bind m k w =
  match fst (m w) with
  | inl e => (inl e, snd (m w))
  | inr a => k a (snd (m w))
  end.
Proof. unfold bind. destruct (m w) as [[e | a] w']; reflexivity. Qed.

Lemma openai_chat_completion_run q model w :
  openai_chat_completion service q model w =
  (match service (outbound w) (completion_call w q model) with
   | inl e => inl e
   | inr completion => first_choice_content completion
   end,
   log_call (completion_call w q model) w).
Proof.
  unfold openai_chat_completion, bind, ChatCompletion_create.
  fold (completion_call w q model).
  destruct (service (outbound w) (completion_call w q model)) as [e | c];
    [reflexivity |].
  unfold first_choice_content, getitem_list, getitem_dict.
  destruct (choices c) as [| choice rest]; simpl; [reflexivity |].
  destruct (message choice !! "content"); reflexivity.
Qed.

Lemma qa_via_run (fn : string -> M string) q w :
  qa_via fn q w =
  (sum_map id (qa_result q) (fst (fn q w)), snd (fn q w)).
Proof.
  unfold qa_via, bind, ret, qa_result.
  destruct (fn q w) as [[e | a] w']; reflexivity.
Qed.

Lemma qa_run q w :
  qa service q w =
  (sum_map id (qa_result q) (fst (openai_chat_completion service q None w)),
   log_call (completion_call w q None) w).
Proof.
  unfold qa. rewrite qa_via_run.
  rewrite openai_chat_completion_run. reflexivity.
Qed.

Lemma qa_result_question q a : qa_result q a !! "question" = Some q.
Proof. unfold qa_result. apply lookup_insert_eq. Qed.

Lemma qa_result_answer q a : qa_result q a !! "answer" = Some a.
Proof.
  unfold qa_result. rewrite lookup_insert_ne by discriminate.
  apply lookup_singleton_eq.
Qed.

(** *** The question in the response *)

(** C1: whenever [qa] succeeds on a question [q], the response object's
    ["question"] field is [q] itself, unchanged. *)
Theorem qa_question_verbatim (q : string) (w w' : World) (resp : dict) :
  qa service q w = (inr resp, w') ->
  resp !! "question" = Some q.
Proof.
  rewrite qa_run. intros H.
  destruct (fst (openai_chat_completion service q None w)) as [e | a];
    simpl in H; [discriminate |].
  injection H as <- _. apply qa_result_question.
Qed.

(** *** The conversation sent to the service *)

(** C2: for every question (and every model argument) the completion client
    sends one call whose message list is the system message with the
    persona text followed by the user message holding the question. *)
Theorem conversation_two_messages
    (q : string) (model : option string) (w : World) :
  exists call : CompletionRequest,
    outbound (snd (openai_chat_completion service q model w))
      = outbound w ++ [call]
    /\ req_messages call =
         [ {[ "role" := "system"; "content" := "You are a funny assistant." ]};
           {[ "role" := "user"; "content" := q ]} ].
Proof.
  exists (completion_call w q model).
  rewrite openai_chat_completion_run. split; reflexivity.
Qed.

(** The two messages read back field by field. *)
Lemma conversation_fields (q : string) (model : option string) (w : World) :
  exists sys usr : dict,
    req_messages (completion_call w q model) = [sys; usr]
    /\ sys !! "role" = Some "system"
    /\ sys !! "content" = Some "You are a funny assistant."
    /\ usr !! "role" = Some "user"
    /\ usr !! "content" = Some q.
Proof.
  eexists _, _. split; [reflexivity |].
  repeat split.
Qed.

(** *** The answer *)

(** C3: when the service answers the client's call with a completion, the
    client returns the ["content"] of the message of that completion's
    first choice. *)
Theorem returns_first_choice_content
    (q : string) (model : option string) (w : World)
    (completion : Completion) (choice : Choice) (text : string) :
  service (outbound w) (completion_call w q model) = inr completion ->
  choices completion !! 0 = Some choice ->
  message choice !! "content" = Some text ->
  fst (openai_chat_completion service q model w) = inr text.
Proof.
  intros Hanswer Hfirst Hcontent.
  rewrite openai_chat_completion_run, Hanswer. simpl.
  unfold first_choice_content.
  destruct (choices completion) as [| c rest]; [discriminate |].
  injection Hfirst as ->. rewrite Hcontent. reflexivity.
Qed.

(** A completion that lacks a first choice, or whose first message lacks
    ["content"], makes the client raise. *)
Lemma malformed_completion_raises
    (q : string) (model : option string) (w : World) (completion : Completion) :
  service (outbound w) (completion_call w q model) = inr completion ->
  fst (openai_chat_completion service q model w)
    = first_choice_content completion.
Proof.
  intros Hanswer. rewrite openai_chat_completion_run, Hanswer. reflexivity.
Qed.

(** *** The root endpoint *)

(** C4: [root] returns the object [{"Hello": "World"}] and leaves the world
    as it was; a GET on the root path answers 200 with that object for
    every query string and every world. *)
Theorem get_root_hello_world (query : dict) (w : World) :
  root w = (inr {[ "Hello" := "World" ]}, w)
  /\ get_root codes query w
     = ({| status := 200; body := Some {[ "Hello" := "World" ]} |}, w).
Proof. split; reflexivity. Qed.

(** *** A missing question *)

(** C5: a GET on [/qa] without the [question] parameter is answered with a
    4xx status, and the world is left as it was: nothing is sent to the
    completion service. *)
Theorem get_qa_missing_question (query : dict) (w : World) :
  query !! "question" = None ->
  400 <= status (fst (get_qa service codes query w)) <= 499
  /\ body (fst (get_qa service codes query w)) = None
  /\ snd (get_qa service codes query w) = w
  /\ outbound (snd (get_qa service codes query w)) = outbound w.
Proof.
  intros Habsent. unfold get_qa. rewrite Habsent. simpl.
  split; [apply client_error_4xx |]. repeat split.
Qed.

(** *** Failures *)

(** A failure of the service leaves the client as the same exception. *)
Lemma service_failure_propagates
    (q : string) (model : option string) (w : World) (e : exn) :
  service (outbound w) (completion_call w q model) = inl e ->
  openai_chat_completion service q model w
    = (inl e, log_call (completion_call w q model) w).
Proof.
  intros Hfail. rewrite openai_chat_completion_run, Hfail. reflexivity.
Qed.

(** C6: an exception [e] raised by the completion client leaves [qa] as the
    same [e], with the same world; the GET on [/qa] that carries the
    question is then answered with a 5xx status and no body. *)
Theorem completion_failure_surfaces (q : string) (w w' : World) (e : exn) :
  openai_chat_completion service q None w = (inl e, w') ->
  qa service q w = (inl e, w')
  /\ forall query : dict,
       query !! "question" = Some q ->
       500 <= status (fst (get_qa service codes query w)) <= 599
       /\ body (fst (get_qa service codes query w)) = None
       /\ snd (get_qa service codes query w) = w'.
Proof.
  intros Hraise.
  assert (Hqa : qa service q w = (inl e, w')).
  { unfold qa. rewrite qa_via_run, Hraise. reflexivity. }
  split; [exact Hqa |].
  intros query Hq. unfold get_qa. rewrite Hq, Hqa. simpl.
  split; [apply server_error_5xx | split; reflexivity].
Qed.

(** *** The empty question *)

(** C7: [qa] on the empty string sends the usual call, with the empty string
    as the user message; its result is the client's exception or the object
    pairing the empty question with the answer; and a GET on [/qa] whose
    [question] is any string at all, the empty one included, runs [qa] on
    that string. *)
Theorem empty_question_passes_through (w : World) :
  outbound (snd (qa service "" w))
    = outbound w ++
      [ {| req_api_key := api_key (globals w);
           req_model := "gpt-3.5-turbo";
           req_messages :=
             [ {[ "role" := "system";
                  "content" := "You are a funny assistant." ]};
               {[ "role" := "user"; "content" := "" ]} ] |} ]
  /\ fst (qa service "" w)
     = sum_map id (fun answer => {[ "question" := ""; "answer" := answer ]})
         (fst (openai_chat_completion service "" None w))
  /\ forall (q : string) (query : dict),
       get_qa service codes (<[ "question" := q ]> query) w
         = respond codes (qa service q w).
Proof.
  rewrite qa_run. split; [reflexivity |]. split; [reflexivity |].
  intros q query. unfold get_qa. rewrite lookup_insert_eq. reflexivity.
Qed.

(** *** What an invocation leaves behind *)

(** C8: an invocation of the completion client, and likewise of [qa], adds
    exactly one call to the log of outbound calls and leaves the module's
    globals, the credential among them, as they were. *)
Theorem invocation_frame (q : string) (model : option string) (w : World) :
  (globals (snd (openai_chat_completion service q model w)) = globals w
   /\ exists call : CompletionRequest,
        outbound (snd (openai_chat_completion service q model w))
          = outbound w ++ [call])
  /\ (globals (snd (qa service q w)) = globals w
      /\ exists call : CompletionRequest,
           outbound (snd (qa service q w)) = outbound w ++ [call]).
Proof.
  rewrite openai_chat_completion_run, qa_run. simpl.
  split; (split; [reflexivity | eexists; reflexivity]).
Qed.

(** Over any run of questions the globals stay put and the log grows by
    one call per question. *)
Lemma serve_frame (questions : list string) (w : World) :
  globals (serve service questions w) = globals w
  /\ length (outbound (serve service questions w))
     = length (outbound w) + length questions.
Proof.
  unfold serve. revert w.
  induction questions as [| q rest IH]; intros w; simpl.
  - split; [reflexivity | lia].
  - destruct (IH (snd (qa service q w))) as [Hg Hn].
    rewrite Hg, Hn, qa_run. simpl. rewrite length_app. simpl.
    split; [reflexivity | lia].
Qed.

(** The credential every call carries is the one start-up read from the
    environment. *)
Lemma credential_fixed_at_startup
    (load_dotenv : dict -> dict) (questions : list string) (w : World) :
  api_key (globals (serve service questions (module_init load_dotenv w)))
    = load_dotenv (environ (globals w)) !! "OPENAI_API_KEY".
Proof.
  destruct (serve_frame questions (module_init load_dotenv w)) as [-> _].
  reflexivity.
Qed.

(** *** The model *)

(** C9: the call [qa] sends names the model "gpt-3.5-turbo", and so does
    every call a GET on [/qa] sends, whatever its query string holds; the
    client itself sends the model it is given. *)
Theorem qa_uses_default_model :
  (forall (q : string) (w : World),
     exists call : CompletionRequest,
       outbound (snd (qa service q w)) = outbound w ++ [call]
       /\ req_model call = "gpt-3.5-turbo")
  /\ (forall (query : dict) (w : World),
        Forall (fun call => req_model call = "gpt-3.5-turbo")
          (drop (length (outbound w))
             (outbound (snd (get_qa service codes query w)))))
  /\ (forall (q m : string) (w : World),
        exists call : CompletionRequest,
          outbound (snd (openai_chat_completion service q (Some m) w))
            = outbound w ++ [call]
          /\ req_model call = m).
Proof.
  split; [| split].
  - intros q w. exists (completion_call w q None).
    rewrite qa_run. split; reflexivity.
  - intros query w. unfold get_qa.
    destruct (query !! "question") as [q |]; simpl.
    + assert (Hw : snd (respond codes (qa service q w))
                   = log_call (completion_call w q None) w).
      { rewrite qa_run. unfold respond.
        destruct (sum_map _ _ _); reflexivity. }
      rewrite Hw. simpl. rewrite drop_app_length.
      constructor; [reflexivity | constructor].
    + rewrite drop_all. constructor.
  - intros q m w. exists (completion_call w q (Some m)).
    rewrite openai_chat_completion_run. split; reflexivity.
Qed.

(** *** Determinism *)

(** C10: with the completion function fixed, two runs of the handler on the
    same question in which that function gives the same outcome give the
    same outcome themselves, and that outcome is computed from the question
    and the completion function's outcome alone. *)
Theorem qa_deterministic
    (fn : string -> M string) (q : string) (w1 w2 : World) :
  fst (fn q w1) = fst (fn q w2) ->
  fst (qa_via fn q w1) = fst (qa_via fn q w2)
  /\ fst (qa_via fn q w1)
     = sum_map id (fun answer => {[ "question" := q; "answer" := answer ]})
         (fst (fn q w1)).
Proof.
  intros Hsame. rewrite !qa_via_run. simpl. rewrite Hsame.
  split; reflexivity.
Qed.

(** A stub that is a function of the question gives the same response in
    every world, and touches nothing. *)
Lemma qa_via_stub (f : string -> string) (q : string) (w : World) :
  qa_via (stub f) q w = (inr {[ "question" := q; "answer" := f q ]}, w).
Proof. reflexivity. Qed.

End Properties.

(** * Runs on concrete inputs *)

(** The echoing service: the question "ping" comes back in the response. *)
Lemma qa_question_verbatim_witness :
  qa echo_service "ping" (fresh_world "sk-test")
    = (inr (qa_result "ping" "ping"),
       log_call (completion_call (fresh_world "sk-test") "ping" None)
         (fresh_world "sk-test"))
  /\ qa_result "ping" "ping" !! "question" = Some "ping".
Proof.
  assert (Hrun : qa echo_service "ping" (fresh_world "sk-test")
                 = (inr (qa_result "ping" "ping"),
                    log_call
                      (completion_call (fresh_world "sk-test") "ping" None)
                      (fresh_world "sk-test")))
    by (vm_compute; reflexivity).
  split; [exact Hrun |].
  exact (qa_question_verbatim echo_service "ping" _ _ _ Hrun).
Defined.

(** A service with one canned choice: the client returns its content. *)
Lemma returns_first_choice_content_witness :
  fst (openai_chat_completion (canned_service "42") "6 x 7?" (Some "gpt-4")
         (fresh_world "sk-test"))
  = inr "42".
Proof.
  apply (returns_first_choice_content (canned_service "42") "6 x 7?"
           (Some "gpt-4") (fresh_world "sk-test")
           {| choices := [ {| message := {[ "role" := "assistant";
                                            "content" := "42" ]} |} ] |}
           {| message := {[ "role" := "assistant"; "content" := "42" ]} |}
           "42");
    reflexivity.
Defined.

(** A query string with another parameter only: a 4xx, and nothing sent. *)
Lemma get_qa_missing_question_witness :
  ({[ "q" := "ping" ]} : dict) !! "question" = None
  /\ 400 <= status (fst (get_qa echo_service default_codes {[ "q" := "ping" ]}
                          (fresh_world "sk-test"))) <= 499
  /\ outbound (snd (get_qa echo_service default_codes {[ "q" := "ping" ]}
                      (fresh_world "sk-test"))) = [].
Proof.
  assert (Habsent : ({[ "q" := "ping" ]} : dict) !! "question" = None)
    by reflexivity.
  destruct (get_qa_missing_question echo_service default_codes
              {[ "q" := "ping" ]} (fresh_world "sk-test") Habsent)
    as (Hstatus & _ & _ & Hout).
  split; [exact Habsent |]. split; [exact Hstatus | exact Hout].
Defined.

(** A rate-limited service: the same exception leaves [qa]; no body. *)
Lemma completion_failure_surfaces_witness :
  qa (failing_service RateLimitError) "ping" (fresh_world "sk-test")
    = (inl (APIError RateLimitError),
       log_call (completion_call (fresh_world "sk-test") "ping" None)
         (fresh_world "sk-test"))
  /\ body (fst (get_qa (failing_service RateLimitError) default_codes
                  {[ "question" := "ping" ]} (fresh_world "sk-test"))) = None.
Proof.
  assert (Hraise :
    openai_chat_completion (failing_service RateLimitError) "ping" None
      (fresh_world "sk-test")
    = (inl (APIError RateLimitError),
       log_call (completion_call (fresh_world "sk-test") "ping" None)
         (fresh_world "sk-test")))
    by reflexivity.
  destruct (completion_failure_surfaces (failing_service RateLimitError)
              default_codes "ping" _ _ _ Hraise) as [Hqa Hhttp].
  split; [exact Hqa |].
  assert (Hq : ({[ "question" := "ping" ]} : dict) !! "question"
               = Some "ping") by (vm_compute; reflexivity).
  destruct (Hhttp {[ "question" := "ping" ]} Hq) as (_ & Hbody & _).
  exact Hbody.
Defined.

(** The real client over the echoing service, run with two credentials. *)
Lemma qa_deterministic_witness :
  fst (qa echo_service "ping" (fresh_world "key-one"))
  = fst (qa echo_service "ping" (fresh_world "key-two")).
Proof.
  apply (qa_deterministic
           (fun q => openai_chat_completion echo_service q None) "ping"
           (fresh_world "key-one") (fresh_world "key-two")).
  vm_compute. reflexivity.
Defined.

(** * Further properties of the module *)

Section Further.

Variable service :
  list CompletionRequest -> CompletionRequest -> exn + Completion.

(** *** Completions the client cannot read *)

(** X1: when the service answers with a completion that has no choice,
    [choices[0]] raises [IndexError]; the exception leaves the client and
    [qa] as it is, and the call that was sent stays sent. *)
Theorem no_choice_raises_index_error
    (q : string) (w : World) (completion : Completion) :
  service (outbound w) (completion_call w q None) = inr completion ->
  choices completion = [] ->
  fst (openai_chat_completion service q None w) = inl IndexError
  /\ fst (qa service q w) = inl IndexError
  /\ outbound (snd (qa service q w))
     = outbound w ++ [completion_call w q None].
Proof.
  intros Hanswer Hempty.
  rewrite qa_run, openai_chat_completion_run, Hanswer. simpl.
  unfold first_choice_content. rewrite Hempty.
  repeat split.
Qed.

(** X2: when the message of the first choice has no ["content"] entry, the
    client and [qa] raise [KeyError] for the key ["content"], whatever else
    the message and the other choices hold. *)
Theorem no_content_raises_key_error
    (q : string) (w : World) (completion : Completion) (choice : Choice) :
  service (outbound w) (completion_call w q None) = inr completion ->
  choices completion !! 0 = Some choice ->
  message choice !! "content" = None ->
  fst (openai_chat_completion service q None w) = inl (KeyError "content")
  /\ fst (qa service q w) = inl (KeyError "content").
Proof.
  intros Hanswer Hfirst Hmissing.
  rewrite qa_run, openai_chat_completion_run, Hanswer. simpl.
  unfold first_choice_content.
  destruct (choices completion) as [| c rest]; [discriminate |].
  injection Hfirst as ->. rewrite Hmissing. split; reflexivity.
Qed.

(** *** The response object *)

(** X3: when the service answers [qa]'s call with a completion whose first
    choice carries the text [text], [qa] succeeds, and its object holds the
    question under ["question"], [text] under ["answer"], and no other
    key. *)
Theorem qa_response_shape
    (q : string) (w : World)
    (completion : Completion) (choice : Choice) (text : string) :
  service (outbound w) (completion_call w q None) = inr completion ->
  choices completion !! 0 = Some choice ->
  message choice !! "content" = Some text ->
  exists resp : dict,
    fst (qa service q w) = inr resp
    /\ resp !! "question" = Some q
    /\ resp !! "answer" = Some text
    /\ dom resp = ({[ "question"; "answer" ]} : gset string).
Proof.
  intros Hanswer Hfirst Hcontent.
  exists (qa_result q text).
  rewrite qa_run, openai_chat_completion_run, Hanswer. simpl.
  unfold first_choice_content.
  destruct (choices completion) as [| c rest]; [discriminate |].
  injection Hfirst as ->. rewrite Hcontent. simpl.
  split; [reflexivity |].
  split; [apply qa_result_question |].
  split; [apply qa_result_answer |].
  unfold qa_result. rewrite dom_insert_L, dom_singleton_L. reflexivity.
Qed.

(** *** Runs of requests *)

(** The log after a run: one call per question, each built from the world
    the run started in. *)
Lemma serve_log (questions : list string) (w : World) :
  outbound (serve service questions w)
  = outbound w ++ map (fun q => completion_call w q None) questions.
Proof.
  unfold serve. revert w.
  induction questions as [| q rest IH]; intros w; simpl.
  - rewrite app_nil_r. reflexivity.
  - rewrite IH, qa_run. simpl. rewrite <- app_assoc. reflexivity.
Qed.

(** X4: questions handled one after the other by [qa] send one call each,
    in order, and the call for a question holds the persona and that
    question only: nothing of the earlier questions, of their answers or of
    their failures goes into a later call. *)
Theorem calls_carry_no_history (questions : list string) (w : World) :
  outbound (serve service questions w)
  = outbound w ++
    map (fun q =>
           {| req_api_key := api_key (globals w);
              req_model := "gpt-3.5-turbo";
              req_messages :=
                [ {[ "role" := "system";
                     "content" := "You are a funny assistant." ]};
                  {[ "role" := "user"; "content" := q ]} ] |})
        questions.
Proof.
  unfold serve. revert w.
  induction questions as [| q rest IH]; intros w; simpl.
  - rewrite app_nil_r. reflexivity.
  - rewrite IH, qa_run. simpl. rewrite <- app_assoc. reflexivity.
Qed.

(** *** The credential *)

(** X5: after start-up, every call sent over a run of questions carries the
    value the environment held for [OPENAI_API_KEY] once [load_dotenv] had
    run, whatever [openai.api_key] was before. *)
Theorem calls_carry_startup_credential
    (load_dotenv : dict -> dict) (questions : list string) (w : World) :
  Forall
    (fun call =>
       req_api_key call
       = load_dotenv (environ (globals w)) !! "OPENAI_API_KEY")
    (drop (length (outbound w))
       (outbound (serve service questions (module_init load_dotenv w)))).
Proof.
  rewrite serve_log. simpl. rewrite drop_app_length.
  apply Forall_forall. intros call Hin.
  apply list_elem_of_In, in_map_iff in Hin.
  destruct Hin as (q & <- & _). reflexivity.
Qed.


End Further.

(** A service without any choice: [IndexError], one call sent. *)
Lemma no_choice_raises_index_error_witness :
  fst (qa choiceless_service "ping" (fresh_world "sk-test")) = inl IndexError
  /\ length (outbound (snd (qa choiceless_service "ping"
                             (fresh_world "sk-test")))) = 1.
Proof.
  destruct (no_choice_raises_index_error choiceless_service "ping"
              (fresh_world "sk-test") {| choices := [] |}
              eq_refl eq_refl) as (_ & Hqa & Hlog).
  split; [exact Hqa |]. rewrite Hlog. reflexivity.
Defined.

(** A service whose only message has a role and nothing else. *)
Lemma no_content_raises_key_error_witness :
  fst (qa (fun _ _ =>
             inr {| choices :=
                      [ {| message := {[ "role" := "assistant" ]} |} ] |})
          "ping" (fresh_world "sk-test"))
  = inl (KeyError "content").
Proof.
  refine (proj2 (no_content_raises_key_error
                   (fun _ _ =>
                      inr {| choices :=
                               [ {| message := {[ "role" := "assistant" ]} |} ] |})
                   "ping" (fresh_world "sk-test")
                   {| choices :=
                        [ {| message := {[ "role" := "assistant" ]} |} ] |}
                   {| message := {[ "role" := "assistant" ]} |}
                   _ _ _));
    reflexivity.
Defined.

(** A service with two choices: the first one's text is the answer. *)
Lemma qa_response_shape_witness :
  exists resp : dict,
    fst (qa (fun _ _ =>
               inr {| choices :=
                        [ {| message := {[ "content" := "first" ]} |};
                          {| message := {[ "content" := "second" ]} |} ] |})
            "ping" (fresh_world "sk-test"))
    = inr resp
    /\ resp !! "question" = Some "ping"
    /\ resp !! "answer" = Some "first"
    /\ dom resp = ({[ "question"; "answer" ]} : gset string).
Proof.
  refine (qa_response_shape
            (fun _ _ =>
               inr {| choices :=
                        [ {| message := {[ "content" := "first" ]} |};
                          {| message := {[ "content" := "second" ]} |} ] |})
            "ping" (fresh_world "sk-test")
            {| choices :=
                 [ {| message := {[ "content" := "first" ]} |};
                   {| message := {[ "content" := "second" ]} |} ] |}
            {| message := {[ "content" := "first" ]} |}
            "first" _ _ _);
    reflexivity.
Defined.

